(** * The streaming z-score anomaly detector of main.py

    A shallow embedding of [AnomalyDetector] (its constructor and
    [add_data_point]) and of the per-frame callback [update] of
    [plot_data_stream_realtime], followed by the properties of the
    specification that are stated about them.

    Conventions.
    - Python objects that reach the code are values of [pyobj]; the numeric
      ones are values of [number].
    - Scalars are IEEE binary64 numbers, Rocq's primitive [float]: this is
      what [np.float64] arithmetic computes with.  An [int] is taken in the
      range NumPy stores as [int64] and converts to binary64.
    - [np.mean] and [np.std] belong to NumPy, not to main.py.  Everything
      generic is stated for an arbitrary pair of reductions (class [NumPy]);
      concrete runs use [numpy_short], the two-pass population formulas with
      left-to-right sums that NumPy applies to arrays of fewer than eight
      elements.
    - [FuncAnimation] belongs to matplotlib.  [update] is modelled call by
      call; [animate] is a succession of calls of [update] for given frames.
    - A method of a mutable object is a computation in the state-and-exception
      monad [M]: a raised exception leaves the state as the mutations made it.
    - [logging] calls have no effect on any modelled state and are left out. *)

From Stdlib Require Import String ZArith List Bool Lia.
From Stdlib Require Import Floats.
From Stdlib Require Import Sorted.
Import ListNotations.

Open Scope list_scope.
Open Scope Z_scope.

(* ================================================================== *)
(** ** Python values *)

(** Numeric objects.  [PyInt] is [int] (and [bool], its subclass), within
    the range of [np.int64]; [PyFloat] is [float] (and [np.float64], its
    subclass, which passes the same [isinstance] tests of main.py);
    [NpNumber] is any other [np.number] scalar, such as [np.float32] or
    [np.int64], given by the binary64 value it promotes to. *)
Inductive number : Type :=
| PyInt (n : Z)
| PyFloat (x : float)
| NpNumber (x : float).

(** Objects in general: the numbers, and three kinds of objects that are
    not instances of [int], [float] or [np.number]. *)
Inductive pyobj : Type :=
| PyNum (n : number)
| PyComplex (re im : float)
| PyStr (s : string)
| PyNone.

Inductive pytype : Type := t_int | t_float | t_np_number.

Definition instance_of (o : pyobj) (t : pytype) : bool :=
  match o, t with
  | PyNum (PyInt _), t_int => true
  | PyNum (PyFloat _), t_float => true
  | PyNum (NpNumber _), t_np_number => true
  | _, _ => false
  end.

(** [isinstance(o, (t1, ..., tn))]. *)
Definition isinstance (o : pyobj) (ts : list pytype) : bool :=
  existsb (instance_of o) ts.

Definition as_number (o : pyobj) : option number :=
  match o with PyNum n => Some n | _ => None end.

Definition as_int (o : pyobj) : option Z :=
  match o with PyNum (PyInt n) => Some n | _ => None end.

(** Conversion of an integer to binary64, rounding to nearest even (an
    integer beyond the binary64 range becomes an infinity here). *)
Definition Z2float (n : Z) : float :=
  SF2Prim (binary_normalize prec emax n 0 false).

(** The binary64 value a number takes in arithmetic with an [np.float64]. *)
Definition to_float64 (n : number) : float :=
  match n with
  | PyInt k => Z2float k
  | PyFloat x => x
  | NpNumber x => x
  end.

Inductive exn : Type :=
| ValueError (msg : string)
| TypeError (msg : string).

Definition is_ValueError (e : exn) : bool :=
  match e with ValueError _ => true | TypeError _ => false end.

(* ================================================================== *)
(** ** Mutable state and exceptions *)

Definition M (S A : Type) : Type := S -> (exn + A) * S.

Definition ret {S A : Type} (a : A) : M S A := fun s => (inr a, s).

Definition bind {S A B : Type} (m : M S A) (k : A -> M S B) : M S B :=
  fun s =>
    match m s with
    | (inr a, s') => k a s'
    | (inl e, s') => (inl e, s')
    end.

Definition raise {S A : Type} (e : exn) : M S A := fun s => (inl e, s).

Definition get {S : Type} : M S S := fun s => (inr s, s).

Definition modify {S : Type} (f : S -> S) : M S unit := fun s => (inr tt, f s).

(** [try: m  except ValueError: h]. *)
Definition try_except_ValueError {S A : Type} (m : M S A) (h : exn -> M S A)
  : M S A :=
  fun s =>
    match m s with
    | (inl e, s') => if is_ValueError e then h e s' else (inl e, s')
    | r => r
    end.

Declare Scope py_scope.
Delimit Scope py_scope with py.
Notation "x <- m ;; k" := (bind m (fun x => k))
  (at level 100, m at next level, right associativity) : py_scope.
Notation "m ;; k" := (bind m (fun _ => k))
  (at level 100, right associativity) : py_scope.
Open Scope py_scope.

(* ================================================================== *)
(** ** [collections.deque] with [maxlen] *)

Record deque : Type := mk_deque { items : list number; maxlen : Z }.

Definition deque_new (n : Z) : deque := {| items := []; maxlen := n |}.

Definition deque_len (q : deque) : Z := Z.of_nat (length (items q)).

(** [q.append(x)]: the item goes to the right end; a deque that has grown
    beyond [maxlen] drops its leftmost item. *)
Definition deque_append (q : deque) (x : number) : deque :=
  let l := items q ++ [x] in
  {| items := if maxlen q <? Z.of_nat (length l) then tl l else l;
     maxlen := maxlen q |}.

(* ================================================================== *)
(** ** NumPy reductions *)

(** [np.mean] and [np.std] applied to the deque: they read its items as an
    array and return an [np.float64]. *)
Class NumPy : Type := {
  np_mean : list number -> float;
  np_std : list number -> float
}.

(** The reductions written out for short arrays.  The order in which NumPy
    adds the terms matters for the last bit of a sum only; the runs on
    which [numpy_short] is evaluated below have windows of at most four
    values whose sums are the same in every order of addition. *)

Definition float_sum (l : list float) : float :=
  fold_left PrimFloat.add l 0%float.

Definition float_len {A : Type} (l : list A) : float :=
  Z2float (Z.of_nat (length l)).

(** [mean = sum(a) / n]. *)
Definition short_mean (l : list number) : float :=
  (float_sum (map to_float64 l) / float_len l)%float.

(** [std = sqrt(sum((a - mean)**2) / n)], the population formula
    ([ddof = 0]). *)
Definition short_std (l : list number) : float :=
  let arrmean := short_mean l in
  let x := map (fun a => (to_float64 a - arrmean)%float) l in
  let x2 := map (fun d => (d * d)%float) x in
  PrimFloat.sqrt (float_sum x2 / float_len l)%float.

Definition numpy_short : NumPy :=
  {| np_mean := short_mean; np_std := short_std |}.

(* ================================================================== *)
(** ** class AnomalyDetector *)

Record AnomalyDetector : Type := mk_detector {
  threshold : number;
  window_size : Z;
  data_window : deque;
  anomalies_count : Z
}.

Definition set_data_window (q : deque) (self : AnomalyDetector) :=
  {| threshold := threshold self;
     window_size := window_size self;
     data_window := q;
     anomalies_count := anomalies_count self |}.

Definition set_anomalies_count (c : Z) (self : AnomalyDetector) :=
  {| threshold := threshold self;
     window_size := window_size self;
     data_window := data_window self;
     anomalies_count := c |}.

(** [AnomalyDetector.__init__(self, threshold, window_size)]. *)
Definition AnomalyDetector_init (threshold window_size : pyobj)
  : exn + AnomalyDetector :=
  match (if isinstance threshold [t_int; t_float]
         then as_number threshold else None) with
  | None => inl (ValueError "Threshold must be a numeric value.")
  | Some t =>
      match (if isinstance window_size [t_int]
             then as_int window_size else None) with
      | None => inl (ValueError "Window size must be a positive integer.")
      | Some n =>
          if n <=? 0
          then inl (ValueError "Window size must be a positive integer.")
          else inr {| threshold := t;
                      window_size := n;
                      data_window := deque_new n;
                      anomalies_count := 0 |}
      end
  end.



Section Detector.

Context {numpy : NumPy}.

(** [AnomalyDetector.add_data_point(self, value)]. *)
Definition add_data_point (value : pyobj) : M AnomalyDetector bool :=
  match (if isinstance value [t_int; t_float; t_np_number]
         then as_number value else None) with
  | None => raise (ValueError "Data point must be a numeric value.")
  | Some v =>
      modify (fun self => set_data_window (deque_append (data_window self) v) self) ;;
      self <- get ;;
      if deque_len (data_window self) <? window_size self
      then ret false
      else
        let mean := np_mean (items (data_window self)) in
        let std_dev := np_std (items (data_window self)) in
        if (std_dev =? 0)%float
        then ret false
        else
          let z_score := ((to_float64 v - mean) / std_dev)%float in
          let is_anomaly :=
            (to_float64 (threshold self) <? abs z_score)%float in
          (if is_anomaly
           then modify (fun self =>
                  set_anomalies_count (anomalies_count self + 1) self)
           else ret tt) ;;
          ret is_anomaly
  end.

(** Successive calls of [add_data_point] on one detector, with the outcome
    of each call. *)
Fixpoint feed (values : list pyobj) (self : AnomalyDetector)
  : list (exn + bool) * AnomalyDetector :=
  match values with
  | [] => ([], self)
  | value :: rest =>
      let (r, self') := add_data_point value self in
      let (rs, self'') := feed rest self' in
      (r :: rs, self'')
  end.

End Detector.

(* ================================================================== *)
(** ** The callback of plot_data_stream_realtime *)

(** A line written by [print]: the frame and the value it shows with two
    decimals. *)
Inductive line : Type :=
| Normal (frame : nat) (value : pyobj)
| Anomaly_Detected (frame : nat) (value : pyobj).

(** The replacement field [{value:.2f}] of an f-string calls
    [format(value, ".2f")]: numbers and complex numbers have a fixed-point
    presentation, [str] rejects the format code and [None] any format
    string. *)
Definition format_2f (value : pyobj) : exn + pyobj :=
  match value with
  | PyNum _ | PyComplex _ _ => inr value
  | PyStr _ =>
      inl (ValueError "Unknown format code 'f' for object of type 'str'")
  | PyNone =>
      inl (TypeError "unsupported format string passed to NoneType.__format__")
  end.

(** The variables [update] closes over, and what it has shown so far.  The
    axis limits and the two plotted curves are recomputed from [data] and
    [anomaly_indices] at every frame and are not kept. *)
Record figure : Type := mk_figure {
  detector : AnomalyDetector;
  data : list pyobj;
  anomaly_indices : list nat;
  stdout : list line;
  anomaly_count_text : option Z;
  event_source_stopped : bool
}.


Definition set_detector (d : AnomalyDetector) (st : figure) : figure :=
  mk_figure d (data st) (anomaly_indices st) (stdout st)
            (anomaly_count_text st) (event_source_stopped st).

Definition data_append (value : pyobj) (st : figure) : figure :=
  mk_figure (detector st) (data st ++ [value]) (anomaly_indices st) (stdout st)
            (anomaly_count_text st) (event_source_stopped st).

Definition anomaly_indices_append (frame : nat) (st : figure) : figure :=
  mk_figure (detector st) (data st) (anomaly_indices st ++ [frame]) (stdout st)
            (anomaly_count_text st) (event_source_stopped st).

Definition write_line (l : line) (st : figure) : figure :=
  mk_figure (detector st) (data st) (anomaly_indices st) (stdout st ++ [l])
            (anomaly_count_text st) (event_source_stopped st).

Definition set_text (c : Z) (st : figure) : figure :=
  mk_figure (detector st) (data st) (anomaly_indices st) (stdout st)
            (Some c) (event_source_stopped st).

Definition event_source_stop (st : figure) : figure :=
  mk_figure (detector st) (data st) (anomaly_indices st) (stdout st)
            (anomaly_count_text st) true.

(** A method call on the detector the figure refers to. *)
Definition on_detector {A : Type} (m : M AnomalyDetector A) : M figure A :=
  fun st =>
    let (r, d) := m (detector st) in (r, set_detector d st).

(** [print(f"... {frame}: {value:.2f} ...")]. *)
Definition print (mk : pyobj -> line) (value : pyobj) : M figure unit :=
  match format_2f value with
  | inl e => raise e
  | inr shown => modify (write_line (mk shown))
  end.

Section Runner.

Context {numpy : NumPy}.

(** [update(frame)], the callback handed to [FuncAnimation]. *)
Definition update (data_stream : list pyobj) (frame : nat) : M figure unit :=
  match nth_error data_stream frame with
  | None => modify event_source_stop
  | Some value =>
      modify (data_append value) ;;
      is_anomaly <-
        try_except_ValueError
          (on_detector (add_data_point value))
          (fun _ => ret false) ;;
      (if is_anomaly : bool
       then modify (anomaly_indices_append frame) ;;
            print (Anomaly_Detected frame) value
       else print (Normal frame) value) ;;
      st <- get ;;
      modify (set_text (anomalies_count (detector st)))
  end.

(** Calls of [update] for the frames of a list, one after the other, as
    [FuncAnimation(fig, update, frames=range(len(data_stream)))] makes them
    while it steps through [frames]; an exception that leaves [update] goes
    to the caller and the remaining frames are not drawn. *)
Fixpoint animate (data_stream : list pyobj) (frames : list nat)
  : M figure unit :=
  match frames with
  | [] => ret tt
  | frame :: rest =>
      update data_stream frame ;; animate data_stream rest
  end.

End Runner.

(* ================================================================== *)
(** ** Vocabulary of the specification *)




(** The number of calls that returned [True]. *)
Fixpoint count_true (results : list (exn + bool)) : Z :=
  match results with
  | [] => 0
  | inr true :: rest => 1 + count_true rest
  | _ :: rest => count_true rest
  end.

(** What [update] takes as [is_anomaly] from a call of [add_data_point]:
    its result, or [False] when it raised. *)
Definition reported (r : exn + bool) : bool :=
  match r with inr b => b | inl _ => false end.

(** One line per value, numbered from [frame] on. *)
Fixpoint report_lines (frame : nat) (values : list pyobj)
    (results : list (exn + bool)) : list line :=
  match values, results with
  | value :: values', r :: results' =>
      (if reported r
       then Anomaly_Detected frame value
       else Normal frame value) :: report_lines (S frame) values' results'
  | _, _ => []
  end.


(** The window of a detector is the bounded deque its constructor made:
    capacity [window_size], never more items than that. *)
Definition window_ok (self : AnomalyDetector) : Prop :=
  0 < window_size self /\
  maxlen (data_window self) = window_size self /\
  deque_len (data_window self) <= window_size self.


(** The values [add_data_point] takes. *)
Definition accepted (value : pyobj) : bool :=
  isinstance value [t_int; t_float; t_np_number].


(** The limits [update] gives to the x axis at a frame, with
    [buffer = 200]: [(0, buffer)] while [frame < buffer], then
    [(frame - buffer, frame)]. *)
Definition buffer : Z := 200.

Definition xlim (frame : Z) : Z * Z :=
  if frame <? buffer then (0, buffer) else (frame - buffer, frame).

(* ================================================================== *)
(** ** Facts about binary64 comparison *)



(* ================================================================== *)
(** ** The deque *)

Lemma deque_append_maxlen (q : deque) (x : number) :
  maxlen (deque_append q x) = maxlen q.
Proof. reflexivity. Qed.

Lemma deque_append_items (q : deque) (x : number) :
  items (deque_append q x) =
  if maxlen q <=? deque_len q then tl (items q ++ [x]) else items q ++ [x].
Proof.
  unfold deque_append, deque_len; cbn [items].
  rewrite length_app; cbn [length].
  destruct (Z.ltb_spec (maxlen q) (Z.of_nat (length (items q) + 1)));
    destruct (Z.leb_spec (maxlen q) (Z.of_nat (length (items q))));
    (reflexivity || lia).
Qed.

Lemma deque_append_len (q : deque) (x : number) :
  deque_len (deque_append q x) =
  if maxlen q <=? deque_len q then deque_len q else deque_len q + 1.
Proof.
  unfold deque_len at 1. rewrite deque_append_items. unfold deque_len.
  destruct (Z.leb_spec (maxlen q) (Z.of_nat (length (items q)))).
  - destruct (items q) as [ | a l]; cbn [app tl length].
    + reflexivity.
    + rewrite length_app; cbn [length]. lia.
  - rewrite length_app; cbn [length]. lia.
Qed.

(** Eviction is first-in first-out: a full deque drops its oldest item and
    keeps the others in order, followed by the new one. *)
Lemma deque_append_fifo (q : deque) (x : number) :
  0 < maxlen q -> deque_len q <= maxlen q ->
  items (deque_append q x) =
  (if deque_len q =? maxlen q then tl (items q) else items q) ++ [x].
Proof.
  intros Hpos Hle. rewrite deque_append_items.
  destruct (Z.leb_spec (maxlen q) (deque_len q));
    destruct (Z.eqb_spec (deque_len q) (maxlen q)); try lia; try reflexivity.
  unfold deque_len in *. destruct (items q); cbn in *; [lia | reflexivity].
Qed.

(* ================================================================== *)
(** ** add_data_point, call by call *)

Lemma isinstance_number (value : pyobj) :
  isinstance value [t_int; t_float; t_np_number] = true ->
  exists v, value = PyNum v.
Proof.
  destruct value as [v | re im | s | ]; cbn; try discriminate.
  intros _. now exists v.
Qed.

Lemma isinstance_PyNum (v : number) :
  isinstance (PyNum v) [t_int; t_float; t_np_number] = true.
Proof. now destruct v. Qed.

Section DetectorFacts.

Context {numpy : NumPy}.

(** A value that fails the [isinstance] test is refused before anything
    is touched. *)
Lemma add_data_point_refuses (value : pyobj) (self : AnomalyDetector) :
  isinstance value [t_int; t_float; t_np_number] = false ->
  add_data_point value self =
  (inl (ValueError "Data point must be a numeric value."), self).
Proof.
  intros H. unfold add_data_point. now rewrite H.
Qed.

(** The three ways out of [add_data_point] for a number. *)
Lemma add_data_point_number (v : number) (self : AnomalyDetector) :
  add_data_point (PyNum v) self =
  let q := deque_append (data_window self) v in
  let self1 := set_data_window q self in
  if deque_len q <? window_size self then (inr false, self1)
  else if (np_std (items q) =? 0)%float then (inr false, self1)
  else
    let is_anomaly :=
      (to_float64 (threshold self)
       <? abs ((to_float64 v - np_mean (items q)) / np_std (items q)))%float in
    (inr is_anomaly,
     if is_anomaly
     then set_anomalies_count (anomalies_count self + 1) self1
     else self1).
Proof.
  unfold add_data_point. rewrite isinstance_PyNum. cbn [as_number].
  unfold bind, modify, get, ret.
  cbn [set_data_window data_window window_size threshold].
  destruct (_ <? window_size self); [reflexivity | ].
  destruct (np_std _ =? 0)%float; [reflexivity | ].
  cbv zeta.
  destruct (to_float64 (threshold self) <? _)%float; reflexivity.
Qed.

Lemma add_data_point_window_size (value : pyobj) (self : AnomalyDetector) :
  window_size (snd (add_data_point value self)) = window_size self.
Proof.
  destruct (isinstance value [t_int; t_float; t_np_number]) eqn:E.
  - destruct (isinstance_number _ E) as [v ->].
    rewrite add_data_point_number. cbv zeta.
    repeat match goal with |- context [if ?c then _ else _] =>
      destruct c end; reflexivity.
  - now rewrite add_data_point_refuses.
Qed.


Lemma add_data_point_data_window (v : number) (self : AnomalyDetector) :
  data_window (snd (add_data_point (PyNum v) self)) =
  deque_append (data_window self) v.
Proof.
  rewrite add_data_point_number. cbv zeta.
  repeat match goal with |- context [if ?c then _ else _] =>
    destruct c end; reflexivity.
Qed.

(** The counter moves by one exactly when the call returns [True]. *)
Lemma add_data_point_count (value : pyobj) (self : AnomalyDetector) :
  anomalies_count (snd (add_data_point value self)) =
  anomalies_count self + count_true [fst (add_data_point value self)].
Proof.
  destruct (isinstance value [t_int; t_float; t_np_number]) eqn:E.
  - destruct (isinstance_number _ E) as [v ->].
    rewrite add_data_point_number. cbv zeta.
    repeat match goal with |- context [if ?c then _ else _] =>
      destruct c end; cbn; lia.
  - rewrite add_data_point_refuses by assumption. cbn. lia.
Qed.

Lemma add_data_point_window_ok (value : pyobj) (self : AnomalyDetector) :
  window_ok self -> window_ok (snd (add_data_point value self)).
Proof.
  intros (Hpos & Hmax & Hlen).
  destruct (isinstance value [t_int; t_float; t_np_number]) eqn:E.
  - destruct (isinstance_number _ E) as [v ->].
    unfold window_ok.
    rewrite add_data_point_window_size, add_data_point_data_window.
    rewrite deque_append_maxlen, deque_append_len.
    repeat split; try assumption.
    destruct (Z.leb_spec (maxlen (data_window self))
                         (deque_len (data_window self))); lia.
  - rewrite add_data_point_refuses by assumption. now repeat split.
Qed.

Lemma feed_cons (value : pyobj) (rest : list pyobj) (self : AnomalyDetector) :
  feed (value :: rest) self =
  (fst (add_data_point value self)
     :: fst (feed rest (snd (add_data_point value self))),
   snd (feed rest (snd (add_data_point value self)))).
Proof.
  cbn [feed]. destruct (add_data_point value self) as [r self'].
  cbn [fst snd]. now destruct (feed rest self').
Qed.

Lemma feed_app (xs ys : list pyobj) (self : AnomalyDetector) :
  feed (xs ++ ys) self =
  (fst (feed xs self) ++ fst (feed ys (snd (feed xs self))),
   snd (feed ys (snd (feed xs self)))).
Proof.
  revert self. induction xs as [ | x xs IH]; intros self.
  - cbn. now destruct (feed ys self).
  - rewrite <- app_comm_cons, !feed_cons, IH. reflexivity.
Qed.

Lemma feed_length (values : list pyobj) (self : AnomalyDetector) :
  length (fst (feed values self)) = length values.
Proof.
  revert self. induction values as [ | x xs IH]; intros self.
  - reflexivity.
  - rewrite feed_cons. cbn. now rewrite IH.
Qed.

Lemma feed_window_ok (values : list pyobj) (self : AnomalyDetector) :
  window_ok self -> window_ok (snd (feed values self)).
Proof.
  revert self. induction values as [ | x xs IH]; intros self H.
  - exact H.
  - rewrite feed_cons. cbn [snd]. apply IH.
    now apply add_data_point_window_ok.
Qed.

Lemma feed_window_size (values : list pyobj) (self : AnomalyDetector) :
  window_size (snd (feed values self)) = window_size self.
Proof.
  revert self. induction values as [ | x xs IH]; intros self.
  - reflexivity.
  - rewrite feed_cons. cbn [snd]. rewrite IH.
    apply add_data_point_window_size.
Qed.

Lemma count_true_app (xs ys : list (exn + bool)) :
  count_true (xs ++ ys) = count_true xs + count_true ys.
Proof.
  induction xs as [ | [e | [ | ]] xs IH]; cbn [app count_true]; lia.
Qed.

Lemma count_true_nonneg (xs : list (exn + bool)) : 0 <= count_true xs.
Proof.
  induction xs as [ | [e | [ | ]] xs IH]; cbn [count_true]; lia.
Qed.

Lemma feed_count (values : list pyobj) (self : AnomalyDetector) :
  anomalies_count (snd (feed values self)) =
  anomalies_count self + count_true (fst (feed values self)).
Proof.
  revert self. induction values as [ | x xs IH]; intros self.
  - cbn. lia.
  - rewrite feed_cons. cbn [fst snd]. rewrite IH, add_data_point_count.
    change (?a :: ?l) with ([a] ++ l) at 2.
    rewrite (count_true_app [_]). lia.
Qed.

End DetectorFacts.

Lemma init_window_ok (threshold window_size : pyobj) (self : AnomalyDetector) :
  AnomalyDetector_init threshold window_size = inr self ->
  window_ok self /\ items (data_window self) = [] /\ anomalies_count self = 0.
Proof.
  unfold AnomalyDetector_init.
  destruct (if isinstance threshold _ then _ else _) as [t | ];
    [ | discriminate].
  destruct (if isinstance window_size _ then _ else _) as [n | ];
    [ | discriminate].
  destruct (Z.leb_spec n 0); [discriminate | ].
  intros [= <-]. unfold window_ok, deque_len. cbn. repeat split; lia.
Qed.

(* ================================================================== *)
(** ** The decision rule *)



(** C3 (as amended).  When the window, with the new value appended, is full
    and its standard deviation is exactly zero, [add_data_point] returns
    [False]: it raises nothing, and the counter is left alone. *)
Theorem zero_std_dev_returns_false {numpy : NumPy}
    (self : AnomalyDetector) (v : number) :
  let q := deque_append (data_window self) v in
  window_size self <= deque_len q ->
  (np_std (items q) =? 0)%float = true ->
  add_data_point (PyNum v) self = (inr false, set_data_window q self).
Proof.
  intros q Hfull Hstd.
  rewrite add_data_point_number. cbv zeta. fold q.
  destruct (Z.ltb_spec (deque_len q) (window_size self)); [lia | ].
  now rewrite Hstd.
Qed.

Lemma zero_std_dev_returns_false_witness :
  let self := {| threshold := PyFloat 2;
                 window_size := 4;
                 data_window := {| items := [PyInt 100; PyInt 1; PyInt 1; PyInt 1];
                                   maxlen := 4 |};
                 anomalies_count := 0 |} in
  @add_data_point numpy_short (PyNum (PyInt 1)) self =
  (inr false,
   set_data_window {| items := [PyInt 1; PyInt 1; PyInt 1; PyInt 1];
                      maxlen := 4 |} self).
Proof.
  intros self.
  apply (@zero_std_dev_returns_false numpy_short self (PyInt 1)).
  - vm_compute. discriminate.
  - vm_compute. reflexivity.
Defined.

(** C3 (as stated) fails.  A window of three identical values [0.1] is
    full and constant, yet the mean of the three is not [0.1] in binary64,
    the standard deviation is not zero, the z-score is [-1], and with a
    threshold of [0.5] the third value is an anomaly. *)
Lemma constant_window_is_flagged :
  let tenth := PyFloat 0x1.999999999999ap-4 in
  let self := {| threshold := PyFloat 0.5;
                 window_size := 3;
                 data_window := {| items := [tenth; tenth]; maxlen := 3 |};
                 anomalies_count := 0 |} in
  (exists fresh,
     AnomalyDetector_init (PyNum (PyFloat 0.5)) (PyNum (PyInt 3)) = inr fresh /\
     snd (@feed numpy_short [PyNum tenth; PyNum tenth] fresh) = self) /\
  items (deque_append (data_window self) tenth) = [tenth; tenth; tenth] /\
  fst (@add_data_point numpy_short (PyNum tenth) self) = inr true /\
  anomalies_count (snd (@add_data_point numpy_short (PyNum tenth) self)) = 1.
Proof.
  cbv zeta. split; [ | vm_compute; auto].
  eexists. split; [vm_compute; reflexivity | vm_compute; reflexivity].
Qed.

(* ================================================================== *)
(** ** Refused values *)





(* ================================================================== *)
(** ** Warm-up *)

Section WarmUp.

Context {numpy : NumPy}.

(** While fewer than [window_size] values are held after the append, the
    call returns [False] and the window has grown by one. *)
Lemma add_data_point_warming_up (v : number) (self : AnomalyDetector) :
  window_ok self ->
  deque_len (data_window self) + 1 < window_size self ->
  fst (add_data_point (PyNum v) self) = inr false /\
  deque_len (data_window (snd (add_data_point (PyNum v) self))) =
  deque_len (data_window self) + 1.
Proof.
  intros (Hpos & Hmax & Hlen) Hroom.
  rewrite add_data_point_data_window, add_data_point_number. cbv zeta.
  rewrite deque_append_len, Hmax.
  destruct (Z.leb_spec (window_size self) (deque_len (data_window self)));
    [lia | ].
  destruct (Z.ltb_spec (deque_len (data_window self) + 1) (window_size self));
    [ | lia].
  split; reflexivity.
Qed.


End WarmUp.



(* ================================================================== *)
(** ** The anomaly counter *)

(** C4.  On a detector just constructed, [anomalies_count] is [0]; after any
    sequence of calls it is the number of calls that returned [True]; each
    call adds one when it returns [True] and nothing otherwise; and the
    count never decreases as more calls are made. *)
Theorem anomalies_count_is_number_of_true {numpy : NumPy}
    (threshold size : pyobj) (self : AnomalyDetector) (values : list pyobj) :
  AnomalyDetector_init threshold size = inr self ->
  anomalies_count self = 0 /\
  anomalies_count (snd (feed values self)) =
    count_true (fst (feed values self)) /\
  (forall value,
     let now := snd (feed values self) in
     anomalies_count (snd (add_data_point value now)) =
     anomalies_count now +
     match fst (add_data_point value now) with
     | inr true => 1
     | _ => 0
     end) /\
  (forall more,
     anomalies_count (snd (feed values self)) <=
     anomalies_count (snd (feed (values ++ more) self))).
Proof.
  intros Hinit.
  destruct (init_window_ok _ _ _ Hinit) as (_ & _ & H0).
  repeat split.
  - exact H0.
  - rewrite feed_count, H0. lia.
  - intros value now. rewrite add_data_point_count. cbn [count_true].
    destruct (fst (add_data_point value now)) as [e | [ | ]]; lia.
  - intros more. rewrite feed_app. cbn [snd].
    rewrite (feed_count more).
    pose proof (count_true_nonneg (fst (feed more (snd (feed values self))))).
    lia.
Qed.

Lemma anomalies_count_is_number_of_true_witness :
  let self := {| threshold := PyInt 0;
                 window_size := 2;
                 data_window := deque_new 2;
                 anomalies_count := 0 |} in
  let values := [PyNum (PyFloat 1); PyStr "abc"; PyNum (PyFloat 5);
                 PyNum (PyFloat 5); PyNum (PyInt 9)] in
  fst (@feed numpy_short values self) =
    [inr false; inl (ValueError "Data point must be a numeric value.");
     inr true; inr false; inr true] /\
  anomalies_count (snd (@feed numpy_short values self)) = 2.
Proof.
  intros self values.
  destruct (@anomalies_count_is_number_of_true numpy_short
              (PyNum (PyInt 0)) (PyNum (PyInt 2)) self values)
    as (_ & H & _).
  - reflexivity.
  - rewrite H. split; vm_compute; reflexivity.
Defined.

(* ================================================================== *)
(** ** The window *)

(** C9.  In every state a constructed detector reaches, [window_size] is
    the one given at construction and the window holds between [0] and
    [window_size] values.  A further call keeps this; a number enters at
    the end of the window, and when the window was full its oldest value
    leaves first; a full window stays full. *)
Theorem window_stays_bounded_fifo {numpy : NumPy}
    (threshold size : pyobj) (fresh : AnomalyDetector)
    (values : list pyobj) (value : pyobj) :
  AnomalyDetector_init threshold size = inr fresh ->
  let self := snd (feed values fresh) in
  let self' := snd (add_data_point value self) in
  size = PyNum (PyInt (window_size fresh)) /\
  window_size self = window_size fresh /\
  window_size self' = window_size fresh /\
  0 <= deque_len (data_window self) <= window_size self /\
  0 <= deque_len (data_window self') <= window_size self' /\
  (forall v, value = PyNum v ->
     items (data_window self') =
     (if deque_len (data_window self) =? window_size self
      then tl (items (data_window self))
      else items (data_window self)) ++ [v]) /\
  (deque_len (data_window self) = window_size self ->
   deque_len (data_window self') = window_size self').
Proof.
  intros Hinit self self'.
  destruct (init_window_ok _ _ _ Hinit) as (Hok0 & _ & _).
  assert (Hok : window_ok self) by now apply feed_window_ok.
  assert (Hok' : window_ok self') by now apply add_data_point_window_ok.
  assert (Hws : window_size self = window_size fresh)
    by apply feed_window_size.
  assert (Hws' : window_size self' = window_size self)
    by apply add_data_point_window_size.
  destruct Hok as (Hpos & Hmax & Hlen), Hok' as (Hpos' & Hmax' & Hlen').
  split.
  { revert Hinit. unfold AnomalyDetector_init.
    destruct (if isinstance threshold _ then _ else _) as [t | ];
      [ | discriminate].
    destruct size as [[n | x | x] | re im | s | ]; cbn; try discriminate.
    destruct (n <=? 0); [discriminate | ]. now intros [= <-]. }
  split; [exact Hws | ]. split; [congruence | ].
  split; [unfold deque_len in *; lia | ].
  split; [unfold deque_len in *; lia | ].
  split.
  - intros v ->. subst self'.
    rewrite add_data_point_data_window, <- Hmax.
    apply deque_append_fifo; lia.
  - intros Hfull.
    destruct (isinstance value [t_int; t_float; t_np_number]) eqn:E.
    + destruct (isinstance_number _ E) as [v ->]. subst self'.
      rewrite add_data_point_window_size, add_data_point_data_window.
      rewrite deque_append_len, Hmax.
      destruct (Z.leb_spec (window_size self) (deque_len (data_window self)));
        lia.
    + subst self'. rewrite add_data_point_refuses by assumption.
      exact Hfull.
Qed.

Lemma window_stays_bounded_fifo_witness :
  let fresh := {| threshold := PyInt 3;
                  window_size := 2;
                  data_window := deque_new 2;
                  anomalies_count := 0 |} in
  let values := [PyNum (PyInt 1); PyNum (PyInt 2); PyNum (PyInt 3)] in
  items (data_window (snd (@feed numpy_short values fresh))) =
    [PyInt 2; PyInt 3] /\
  items (data_window
           (snd (@add_data_point numpy_short (PyNum (PyInt 4))
                   (snd (@feed numpy_short values fresh))))) =
    [PyInt 3; PyInt 4].
Proof.
  intros fresh values.
  destruct (@window_stays_bounded_fifo numpy_short
              (PyNum (PyInt 3)) (PyNum (PyInt 2)) fresh values
              (PyNum (PyInt 4)))
    as (_ & _ & _ & _ & _ & H & _).
  - reflexivity.
  - split; [vm_compute; reflexivity | ].
    rewrite (H _ eq_refl). vm_compute. reflexivity.
Defined.

(* ================================================================== *)
(** ** Construction *)






(* ================================================================== *)
(** ** The scenario of the specification *)

(** C5 (as amended).  With [window_size=4] and [threshold=2.0], the
    sequence [1,1,1,1,1,1,1,1,100] gives [False] nine times: three times in
    the warm-up, five times on a window of four [1] whose standard deviation
    is zero, and once for [100], whose window [1,1,1,100] has mean [25.75]
    and gives a z-score below [1.75], not above [2.0].  The counter
    ends at [0]. *)
Theorem scenario_flags_nothing :
  let data := map (fun n => PyNum (PyInt n)) [1; 1; 1; 1; 1; 1; 1; 1; 100] in
  let last_window := [PyInt 1; PyInt 1; PyInt 1; PyInt 100] in
  exists fresh,
    AnomalyDetector_init (PyNum (PyFloat 2)) (PyNum (PyInt 4)) = inr fresh /\
    fst (@feed numpy_short data fresh) = repeat (inr false) 9 /\
    anomalies_count (snd (@feed numpy_short data fresh)) = 0 /\
    items (data_window (snd (@feed numpy_short data fresh))) = last_window /\
    (short_std [PyInt 1; PyInt 1; PyInt 1; PyInt 1] =? 0)%float = true /\
    short_mean last_window = 25.75%float /\
    (abs ((100 - short_mean last_window) / short_std last_window)
     <? 1.75)%float = true.
Proof.
  cbv zeta. eexists. split; [reflexivity | ].
  repeat split; vm_compute; reflexivity.
Qed.

(** C5 (as stated) fails: the run does not end with [True] for [100], and
    the counter is not [1] after it. *)
Lemma scenario_does_not_flag_100 :
  let data := map (fun n => PyNum (PyInt n)) [1; 1; 1; 1; 1; 1; 1; 1; 100] in
  ~ (exists fresh,
       AnomalyDetector_init (PyNum (PyFloat 2)) (PyNum (PyInt 4)) = inr fresh /\
       (nth_error (fst (@feed numpy_short data fresh)) 8 = Some (inr true) \/
        anomalies_count (snd (@feed numpy_short data fresh)) = 1)).
Proof.
  cbv zeta. intros (fresh & Hinit & H).
  vm_compute in Hinit. injection Hinit as <-.
  vm_compute in H. destruct H as [H | H]; discriminate.
Qed.

(* ================================================================== *)
(** ** The animation callback *)

Section RunnerFacts.

Context {numpy : NumPy}.

(** A [str] in the stream: the detector refuses it, [update] catches the
    [ValueError] and goes on with [is_anomaly = False], and then the
    f-string of the [print] raises.  Nothing is written for the frame. *)
Lemma update_str (data_stream : list pyobj) (frame : nat) (s : string)
    (st : figure) :
  nth_error data_stream frame = Some (PyStr s) ->
  update data_stream frame st =
  (inl (ValueError "Unknown format code 'f' for object of type 'str'"),
   data_append (PyStr s) st).
Proof.
  intros H. unfold update. rewrite H.
  unfold bind, modify, try_except_ValueError, on_detector.
  rewrite add_data_point_refuses by reflexivity.
  cbn. now destruct st.
Qed.


End RunnerFacts.

(** C8 fails on the code.  In the stream [1.0, "abc", 2.0] the value of
    frame 1 is refused by the detector; [update] catches that [ValueError]
    and takes the value as not anomalous, and then raises a [ValueError] of
    its own from [{value:.2f}].  Whatever the state before the call, the
    exception leaves [update], no line is written for the frame, the
    anomaly count shown is not refreshed, and the frames that were to
    follow are not drawn. *)
Theorem update_raises_on_refused_str {numpy : NumPy} (st : figure) :
  let data_stream := [PyNum (PyFloat 1); PyStr "abc"; PyNum (PyFloat 2)] in
  let raised :=
    inl (ValueError "Unknown format code 'f' for object of type 'str'") in
  fst (add_data_point (PyStr "abc") (detector st)) =
    inl (ValueError "Data point must be a numeric value.") /\
  update data_stream 1 st = (raised, data_append (PyStr "abc") st) /\
  stdout (snd (update data_stream 1 st)) = stdout st /\
  anomaly_count_text (snd (update data_stream 1 st)) = anomaly_count_text st /\
  forall rest,
    animate data_stream (1%nat :: rest) st =
    (raised, data_append (PyStr "abc") st).
Proof.
  cbv zeta.
  assert (H : update [PyNum (PyFloat 1); PyStr "abc"; PyNum (PyFloat 2)] 1 st =
              (inl (ValueError
                      "Unknown format code 'f' for object of type 'str'"),
               data_append (PyStr "abc") st))
    by now apply update_str.
  split; [now rewrite add_data_point_refuses | ].
  split; [exact H | ].
  rewrite H. cbn [snd].
  split; [reflexivity | ]. split; [reflexivity | ].
  intros rest. cbn [animate]. unfold bind. now rewrite H.
Qed.

(* ================================================================== *)
(** ** Streams whose values can be printed *)

Section AnimateFacts.

Context {numpy : NumPy}.





End AnimateFacts.



(* ================================================================== *)
(** ** What the window holds *)

Lemma feed_numbers_items {numpy : NumPy} (values : list number) :
  forall self : AnomalyDetector,
    window_ok self ->
    items (data_window (snd (feed (map PyNum values) self))) =
    skipn (length (items (data_window self) ++ values)
           - Z.to_nat (window_size self))
          (items (data_window self) ++ values).
Proof.
  induction values as [ | v values IH]; intros self Hok.
  - destruct Hok as (Hpos & Hmax & Hlen). unfold deque_len in Hlen.
    cbn [map feed snd]. rewrite app_nil_r.
    replace (length (items (data_window self)) - Z.to_nat (window_size self))%nat
      with 0%nat by lia.
    reflexivity.
  - cbn [map]. rewrite feed_cons. cbn [snd].
    rewrite IH by now apply add_data_point_window_ok.
    rewrite add_data_point_window_size, add_data_point_data_window.
    destruct Hok as (Hpos & Hmax & Hlen).
    rewrite deque_append_fifo by lia. rewrite Hmax.
    unfold deque_len in *.
    destruct (Z.eqb_spec (Z.of_nat (length (items (data_window self))))
                         (window_size self)) as [Hfull | Hroom].
    + destruct (items (data_window self)) as [ | a l] eqn:El;
        [cbn in Hfull; lia | ].
      cbn [tl]. rewrite <- !app_assoc. cbn [app length].
      rewrite !length_app in *. cbn [length] in *.
      replace (S (length l + S (length values)) - Z.to_nat (window_size self))%nat
        with (S (length l + S (length values) - Z.to_nat (window_size self)))
        by lia.
      reflexivity.
    + rewrite <- !app_assoc. reflexivity.
Qed.

(** X2.  After any numbers have been fed to a detector just constructed,
    the window holds the most recent [window_size] of them (all of them while
    there are fewer), oldest first. *)
Theorem window_holds_most_recent_values {numpy : NumPy}
    (threshold size : pyobj) (fresh : AnomalyDetector)
    (values : list number) :
  AnomalyDetector_init threshold size = inr fresh ->
  items (data_window (snd (feed (map PyNum values) fresh))) =
  skipn (length values - Z.to_nat (window_size fresh)) values.
Proof.
  intros Hinit.
  destruct (init_window_ok _ _ _ Hinit) as (Hok & Hitems & _).
  rewrite feed_numbers_items by assumption.
  now rewrite Hitems.
Qed.

Lemma window_holds_most_recent_values_witness :
  items (data_window
           (snd (@feed numpy_short
                   (map PyNum [PyInt 1; PyInt 2; PyInt 3; PyInt 4; PyInt 5])
                   {| threshold := PyInt 3;
                      window_size := 3;
                      data_window := deque_new 3;
                      anomalies_count := 0 |}))) =
  [PyInt 3; PyInt 4; PyInt 5].
Proof.
  apply (@window_holds_most_recent_values numpy_short
           (PyNum (PyInt 3)) (PyNum (PyInt 3))).
  reflexivity.
Defined.

(* ================================================================== *)
(** ** NaN and the sign of the threshold *)












(* ================================================================== *)
(** ** The verdict depends on the last values only *)

Section SteadyState.

Context {numpy : NumPy}.



End SteadyState.



(* ================================================================== *)
(** ** Refused values leave no trace *)

Section Refused.

Context {numpy : NumPy}.


End Refused.


(* ================================================================== *)
(** ** How many anomalies there can be *)

Section CountBound.

Context {numpy : NumPy}.

Lemma count_true_le_length (rs : list (exn + bool)) :
  count_true rs <= Z.of_nat (length rs).
Proof.
  induction rs as [ | [e | [ | ]] rs IH]; cbn [count_true length]; lia.
Qed.

Lemma feed_count_true_bound (values : list pyobj) :
  forall self : AnomalyDetector,
    window_ok self ->
    count_true (fst (feed values self)) <=
    Z.max 0 (Z.of_nat (length values)
             - (window_size self - 1 - deque_len (data_window self))).
Proof.
  induction values as [ | value rest IH]; intros self Hok.
  - cbn. lia.
  - rewrite feed_cons. cbn [fst length].
    pose proof (IH _ (add_data_point_window_ok value self Hok)) as Hrest.
    rewrite add_data_point_window_size in Hrest.
    pose proof (count_true_le_length
                  (fst (feed rest (snd (add_data_point value self))))) as Hall.
    rewrite feed_length in Hall.
    destruct (accepted value) eqn:E.
    + destruct (isinstance_number _ E) as [v ->].
      rewrite add_data_point_data_window, deque_append_len in Hrest.
      destruct Hok as (Hpos & Hmax & Hlen). rewrite Hmax in Hrest.
      destruct (Z.leb_spec (window_size self) (deque_len (data_window self))).
      * destruct (fst (add_data_point (PyNum v) self)) as [e | [ | ]];
          cbn [count_true]; lia.
      * destruct (Z.ltb_spec (deque_len (data_window self) + 1)
                             (window_size self)) as [Hroom | Hnoroom].
        -- destruct (add_data_point_warming_up v self) as [Hr _];
             [now repeat split | lia | ].
           rewrite Hr. cbn [count_true]. lia.
        -- destruct (fst (add_data_point (PyNum v) self)) as [e | [ | ]];
             cbn [count_true]; lia.
    + rewrite add_data_point_refuses in * by exact E.
      cbn [fst snd count_true] in *. lia.
Qed.

End CountBound.

(** X7.  After [N] calls on a detector just constructed with window size
    [W], [anomalies_count] is between [0] and [N - (W - 1)] (and [0] when
    [N < W]): the warm-up calls cannot count. *)
Theorem anomalies_count_bound {numpy : NumPy}
    (threshold0 size : pyobj) (fresh : AnomalyDetector)
    (values : list pyobj) :
  AnomalyDetector_init threshold0 size = inr fresh ->
  0 <= anomalies_count (snd (feed values fresh)) <=
  Z.max 0 (Z.of_nat (length values) - (window_size fresh - 1)).
Proof.
  intros Hinit.
  destruct (init_window_ok _ _ _ Hinit) as (Hok & Hnil & H0).
  rewrite feed_count, H0.
  pose proof (count_true_nonneg (fst (feed values fresh))).
  pose proof (feed_count_true_bound values fresh Hok) as Hb.
  unfold deque_len in Hb. rewrite Hnil in Hb. cbn [length Z.of_nat] in Hb.
  lia.
Qed.

Lemma anomalies_count_bound_witness :
  0 <= anomalies_count
         (snd (@feed numpy_short
                 [PyNum (PyFloat 1); PyStr "abc"; PyNum (PyFloat 5);
                  PyNum (PyFloat 5); PyNum (PyInt 9)]
                 {| threshold := PyInt 0;
                    window_size := 2;
                    data_window := deque_new 2;
                    anomalies_count := 0 |}))
    <= 4.
Proof.
  apply (@anomalies_count_bound numpy_short
           (PyNum (PyInt 0)) (PyNum (PyInt 2))).
  reflexivity.
Defined.

(* ================================================================== *)
(** ** What a call of [update] can do *)



(* ================================================================== *)
(** ** What is shown agrees with the detector *)




Lemma report_lines_bounds (values : list pyobj) :
  forall frame rs i value,
    In (Anomaly_Detected i value) (report_lines frame values rs) ->
    (frame <= i)%nat.
Proof.
  induction values as [ | v values IH]; intros frame [ | r rs] i value H;
    cbn [report_lines] in H; try contradiction.
  destruct H as [H | H].
  - destruct (reported r); [ | discriminate]. injection H as -> _. lia.
  - apply IH in H. lia.
Qed.




(* ================================================================== *)
(** ** The x axis *)

(** X10.  At every frame the limits of the x axis span exactly [buffer]
    units, start at zero or later and contain the frame; and they never
    move backwards as the frames advance. *)
Theorem xlim_follows_frame (frame frame' : Z) :
  0 <= frame -> frame <= frame' ->
  snd (xlim frame) - fst (xlim frame) = buffer /\
  0 <= fst (xlim frame) <= frame /\
  frame <= snd (xlim frame) /\
  fst (xlim frame) <= fst (xlim frame') /\
  snd (xlim frame) <= snd (xlim frame').
Proof.
  intros H0 Hle. unfold xlim, buffer.
  destruct (Z.ltb_spec frame 200); destruct (Z.ltb_spec frame' 200);
    cbn [fst snd]; lia.
Qed.

Lemma xlim_follows_frame_witness :
  xlim 199 = (0, 200) /\ xlim 200 = (0, 200) /\ xlim 450 = (250, 450) /\
  snd (xlim 200) - fst (xlim 200) = buffer.
Proof.
  split; [reflexivity | ]. split; [reflexivity | ]. split; [reflexivity | ].
  destruct (xlim_follows_frame 200 450) as [H _]; [lia | lia | exact H].
Defined.
